(** * Shallow embedding of the NYC taxi duration service

    Sources: 05-monitoring/{train,app,monitor,simulate}.py and
    06-cicd/{train,app}.py.  Real-valued columns (durations, distances,
    predictions) are modelled as rationals [Q]: the properties below only
    compare such values or pass them through, never round them. *)

From Stdlib Require Import String Ascii List ZArith QArith Bool.
From Stdlib Require Import Permutation Sorted Orders Mergesort Lia.
Import ListNotations.
Open Scope string_scope.

(* ------------------------------------------------------------------ *)
(** ** Python's [str] on integers *)

Module PyStr.

(** One decimal digit, [0 <= d < 10]. *)
Definition digit_char (d : N) : ascii := ascii_of_N (48 + d).

(** Decimal expansion by repeated division; [acc] holds the digits
    already produced (least significant last). *)
Fixpoint str_N_aux (fuel : nat) (n : N) (acc : string) : string :=
  match fuel with
  | O => acc
  | S f =>
      let acc' := String (digit_char (N.modulo n 10)) acc in
      if N.ltb n 10 then acc' else str_N_aux f (N.div n 10) acc'
  end.

Definition str_N (n : N) : string := str_N_aux (S (N.size_nat n)) n "".

(** [str(z)] / [repr(z)] for a Python [int] (and numpy int64). *)
Definition py_str_int (z : Z) : string :=
  if Z.ltb z 0 then String "-" (str_N (Z.abs_N z)) else str_N (Z.to_N z).

(** [format(z, "")], what an f-string replacement field [{z}] without a
    format spec renders: [int.__format__] with an empty spec is [str]. *)
Definition int_format_empty (z : Z) : string := py_str_int z.

(** Pieces of an f-string literal. *)
Inductive fpiece :=
| FLit (s : string)
| FInt (z : Z).

Definition render_piece (p : fpiece) : string :=
  match p with
  | FLit s => s
  | FInt z => int_format_empty z
  end.

Fixpoint fstring (ps : list fpiece) : string :=
  match ps with
  | [] => ""
  | p :: ps' => render_piece p ++ fstring ps'
  end.

(** Python's truthiness-based [s or "unknown"] on an [Optional[str]]. *)
Definition or_unknown (o : option string) : string :=
  match o with
  | Some s => if String.eqb s "" then "unknown" else s
  | None => "unknown"
  end.

End PyStr.

(* ------------------------------------------------------------------ *)
(** ** Feature dictionaries, shared by training and serving *)

(** The dict [{"PU_DO": ..., "trip_distance": ...}] fed to the
    DictVectorizer. *)
Record FeatureDict := mkFeatureDict {
  PU_DO : string;
  fd_trip_distance : Q
}.

(* ------------------------------------------------------------------ *)
(** ** train.py (05-monitoring/train.py and 06-cicd/train.py agree) *)

Module Train.
Import PyStr.

(** A raw trip record: timestamps in microseconds, as parquet stores them. *)
Record RawTrip := mkRawTrip {
  tpep_pickup_datetime : Z;
  tpep_dropoff_datetime : Z;
  PULocationID : Z;
  DOLocationID : Z;
  trip_distance : Q
}.

(** A row after [df["duration"] = ...] has added the duration column. *)
Record Trip := mkTrip {
  raw : RawTrip;
  duration : Q
}.

(** [(dropoff - pickup).dt.total_seconds() / 60]. *)
Definition compute_duration (r : RawTrip) : Q :=
  ((inject_Z (tpep_dropoff_datetime r - tpep_pickup_datetime r)
    / inject_Z 1000000) / inject_Z 60)%Q.

Definition with_duration (df : list RawTrip) : list Trip :=
  map (fun r => mkTrip r (compute_duration r)) df.

Definition Qltb (x y : Q) : bool := negb (Qle_bool y x).

(** [df[(df["duration"] >= 1) & (df["duration"] <= 60)]] *)
Definition duration_mask (t : Trip) : bool :=
  Qle_bool 1 (duration t) && Qle_bool (duration t) 60.

(** [df[(df["trip_distance"] > 0) & (df["trip_distance"] < 100)]] *)
Definition distance_mask (t : Trip) : bool :=
  Qltb 0 (trip_distance (raw t)) && Qltb (trip_distance (raw t)) 100.

(** [load_data(limit)], after [pd.read_parquet] has produced [df]. *)
Definition load_data (limit : nat) (df : list RawTrip) : list Trip :=
  let df := with_duration df in
  let df := filter duration_mask df in
  let df := filter distance_mask df in
  firstn limit df.

Definition default_limit : nat := 100 * 1000.

(** Column-wise [Series.astype(str)] on an int64 column. *)
Definition series_astype_str (s : list Z) : list string := map py_str_int s.

(** [series + "_"] broadcasts the scalar. *)
Definition series_add_scalar (s : list string) (c : string) : list string :=
  map (fun x => x ++ c) s.

(** [series_a + series_b], element-wise on aligned indices. *)
Definition series_add (a b : list string) : list string :=
  map (fun '(x, y) => x ++ y) (combine a b).

(** [prepare_features(df)]: returns the feature dicts and the target. *)
Definition prepare_features (df : list Trip) : list FeatureDict * list Q :=
  let pu := series_astype_str (map (fun t => PULocationID (raw t)) df) in
  let do_ := series_astype_str (map (fun t => DOLocationID (raw t)) df) in
  let pu_do := series_add (series_add_scalar pu "_") do_ in
  let dists := map (fun t => trip_distance (raw t)) df in
  (map (fun '(k, d) => mkFeatureDict k d) (combine pu_do dists),
   map duration df).

End Train.

(* ------------------------------------------------------------------ *)
(** ** The request body and the dict built by both apps' [predict] *)

Module Ride.
Import PyStr.

(** [RideRequest], after pydantic has validated it. *)
Record RideRequest := mkRideRequest {
  PULocationID : Z;
  DOLocationID : Z;
  trip_distance : Q
}.

(** The inline [feature_dict] of [predict] (05 app.py:86-89,
    06 app.py:104-107): [f"{ride.PULocationID}_{ride.DOLocationID}"]. *)
Definition feature_dict (ride : RideRequest) : FeatureDict :=
  mkFeatureDict
    (fstring [FInt (PULocationID ride); FLit "_"; FInt (DOLocationID ride)])
    (trip_distance ride).

End Ride.

(* ------------------------------------------------------------------ *)
(** ** HTTP layer: pydantic validation and FastAPI dispatch *)

Module Http.
Import Ride.

(** The JSON body after pydantic's type coercion, before its field
    constraints are checked. *)
Record RawRide := mkRawRide {
  raw_PULocationID : Z;
  raw_DOLocationID : Z;
  raw_trip_distance : Q
}.

(** [Field(..., ge=1)], [Field(..., ge=1)], [Field(..., gt=0)]: the same
    [RideRequest] in 05-monitoring/app.py and 06-cicd/app.py. *)
Definition validate (b : RawRide) : option RideRequest :=
  if Z.leb 1 (raw_PULocationID b) && Z.leb 1 (raw_DOLocationID b)
     && Train.Qltb 0 (raw_trip_distance b)
  then Some (mkRideRequest (raw_PULocationID b) (raw_DOLocationID b)
                           (raw_trip_distance b))
  else None.

Record PredictionResponse := mkPredictionResponse {
  duration : Q;
  model_version : string
}.

(** The JSON of [/health]: 05's dict has no [model_loaded] key. *)
Record HealthBody := mkHealthBody {
  status : string;
  run_id : string;
  model_loaded : option bool
}.

Inductive Body :=
| BMessage (msg : string)
| BHealth (h : HealthBody)
| BPrediction (p : PredictionResponse).

Inductive Response :=
| Ok200 (b : Body)
| HttpError (code : Z) (detail : string).

Inductive Request :=
| GetRoot
| GetHealth
| PostPredict (body : RawRide).

(** FastAPI validates the body against [RideRequest] before it calls the
    endpoint function; a failure is answered with 422. *)
Definition post_predict (endpoint : RideRequest -> Response) (b : RawRide)
  : Response :=
  match validate b with
  | None => HttpError 422 "validation error"
  | Some ride => endpoint ride
  end.

(** A fitted sklearn Pipeline, seen through [model.predict]. *)
Record Model := mkModel { model_predict : list FeatureDict -> list Q }.

(** [pred = model.predict([feature_dict])[0]]; an empty result raises
    [IndexError], which FastAPI turns into a 500. *)
Definition predict_first (m : Model) (fd : FeatureDict) : option Q :=
  match model_predict m [fd] with
  | p :: _ => Some p
  | [] => None
  end.

(** What a stored model artifact deserialises to. *)
Inductive Artifact :=
| Loadable (m : Model)
| Corrupt.

Definition root_response : Response :=
  Ok200 (BMessage "Welcome to the NYC Taxi Duration prediction API").

(** A served process: either its startup hook raised (uvicorn then exits)
    or it answers the requests in turn. *)
Inductive Process :=
| StartupFailed (exn : string)
| Serving (responses : list Response).

End Http.

(* ------------------------------------------------------------------ *)
(** ** Reading [run_id.txt]: Python text files and [str.strip] *)

Module PyText.

(** A [string] holds decoded text whose code points are below 256 (one
    [ascii] per code point).  [str.isspace] on those code points: 9-13,
    28-31, 32, U+0085 and U+00A0. *)
Definition is_space (c : ascii) : bool :=
  let n := nat_of_ascii c in
  (Nat.eqb n 32 || (Nat.leb 9 n && Nat.leb n 13) || (Nat.leb 28 n && Nat.leb n 31)
   || Nat.eqb n 133 || Nat.eqb n 160)%nat.

Fixpoint lstrip (s : string) : string :=
  match s with
  | String c s' => if is_space c then lstrip s' else s
  | EmptyString => EmptyString
  end.

Fixpoint rev_string (s : string) : string :=
  match s with
  | String c s' => rev_string s' ++ String c EmptyString
  | EmptyString => EmptyString
  end.

(** [str.strip()] without arguments. *)
Definition strip (s : string) : string := rev_string (lstrip (rev_string (lstrip s))).

Definition CR : ascii := ascii_of_nat 13.
Definition LF : ascii := ascii_of_nat 10.

(** Text-mode reading ([newline=None]): ["\r\n"] and a lone ["\r"] become
    ["\n"]. *)
Fixpoint universal_newlines (s : string) : string :=
  match s with
  | EmptyString => EmptyString
  | String c s' =>
      if Ascii.eqb c CR then
        match s' with
        | String d s'' =>
            if Ascii.eqb d LF then String LF (universal_newlines s'')
            else String LF (universal_newlines s')
        | EmptyString => String LF EmptyString
        end
      else String c (universal_newlines s')
  end.

(** An existing file: its decoded text, or a file whose reading raises (a
    directory, bytes not valid in the encoding, no permission). *)
Inductive TextFile :=
| FileText (s : string)
| FileUnreadable (exn : string).

(** [path.read_text()] / [open(path, "r").read()] on an existing file. *)
Definition read_text (f : TextFile) : string + string :=
  match f with
  | FileText s => inl (universal_newlines s)
  | FileUnreadable exn => inr exn
  end.

(** [open(path, "w").write(s)] on POSIX: the file then holds [s]. *)
Definition write_text (s : string) : TextFile := FileText s.

End PyText.

(* ------------------------------------------------------------------ *)
(** ** 06-cicd/app.py *)

Module App06.
Import PyStr Ride Http PyText.

Record State := mkState { RUN_ID : option string; model : option Model }.

(** What the startup hook can see: [run_id.txt] and [models/model]. *)
Record Files := mkFiles {
  run_id_txt : option TextFile;
  models_model : option Artifact
}.

(** [lifespan]: step 1 reads [run_id.txt] when it exists (the read itself
    is unguarded, so its exception leaves the startup hook); step 2 falls
    back to [None] when [models/model] is absent or fails to load. *)
Definition lifespan (fs : Files) : State + string :=
  let rid := match run_id_txt fs with
             | Some f =>
                 match read_text f with
                 | inl txt => inl (Some (strip txt))
                 | inr exn => inr exn
                 end
             | None => inl None
             end in
  match rid with
  | inr exn => inr exn
  | inl rid =>
      let m := match models_model fs with
               | Some (Loadable m) => Some m
               | Some Corrupt => None       (* except Exception: model = None *)
               | None => None
               end in
      inl (mkState rid m)
  end.

Definition is_loaded (st : State) : bool :=
  match model st with Some _ => true | None => false end.

Definition health (st : State) : Response :=
  Ok200 (BHealth (mkHealthBody
    (if is_loaded st then "ok" else "degraded")
    (or_unknown (RUN_ID st))
    (Some (is_loaded st)))).

Definition predict (st : State) (ride : RideRequest) : Response :=
  match model st with
  | None => HttpError 500 "Model not loaded. Check /health."
  | Some m =>
      match predict_first m (Ride.feature_dict ride) with
      | Some pred =>
          Ok200 (BPrediction (mkPredictionResponse pred (or_unknown (RUN_ID st))))
      | None => HttpError 500 "Internal Server Error"
      end
  end.

Definition handle (st : State) (req : Request) : Response :=
  match req with
  | GetRoot => root_response
  | GetHealth => health st
  | PostPredict b => post_predict (predict st) b
  end.

(** Start the service, then answer [reqs]; no handler changes the state. *)
Definition run (fs : Files) (reqs : list Request) : Process :=
  match lifespan fs with
  | inr exn => StartupFailed exn
  | inl st => Serving (map (handle st) reqs)
  end.

End App06.

(* ------------------------------------------------------------------ *)
(** ** 05-monitoring/app.py *)

Module App05.
Import PyStr Ride Http PyText.

Record State := mkState { RUN_ID : option string; model : Model }.

(** The default of [os.getenv("MLFLOW_TRACKING_URI", ...)]. *)
Definition default_tracking_uri : string := "http://localhost:5000".

(** [run_id.txt], the [MLFLOW_TRACKING_URI] environment variable and the
    MLflow tracking servers, each keyed by URI and then by model URI
    [runs:/<RUN_ID>/model]. *)
Record Files := mkFiles {
  run_id_txt : option TextFile;
  env_tracking_uri : option string;
  tracking_stores : string -> string -> option Artifact
}.

(** [lifespan]: [open(...).read()] and [mlflow.pyfunc.load_model] are
    unguarded, so any failure propagates out of the startup hook. *)
Definition lifespan (fs : Files) : State + string :=
  match run_id_txt fs with
  | None => inr "FileNotFoundError: run_id.txt"
  | Some f =>
      match read_text f with
      | inr exn => inr exn
      | inl txt =>
          let rid := strip txt in
          let uri := match env_tracking_uri fs with
                     | Some u => u
                     | None => default_tracking_uri
                     end in
          match tracking_stores fs uri ("runs:/" ++ rid ++ "/model") with
          | Some (Loadable m) => inl (mkState (Some rid) m)
          | Some Corrupt => inr "MlflowException: cannot load model"
          | None => inr "MlflowException: model not found"
          end
      end
  end.

Definition health (st : State) : Response :=
  Ok200 (BHealth (mkHealthBody "ok"
    (match RUN_ID st with Some r => r | None => "None" end) None)).

Definition predict (st : State) (ride : RideRequest) : Response :=
  match predict_first (model st) (Ride.feature_dict ride) with
  | Some pred =>
      Ok200 (BPrediction (mkPredictionResponse pred (or_unknown (RUN_ID st))))
  | None => HttpError 500 "Internal Server Error"
  end.

Definition handle (st : State) (req : Request) : Response :=
  match req with
  | GetRoot => root_response
  | GetHealth => health st
  | PostPredict b => post_predict (predict st) b
  end.

Definition run (fs : Files) (reqs : list Request) : Process :=
  match lifespan fs with
  | inr exn => StartupFailed exn
  | inl st => Serving (map (handle st) reqs)
  end.

End App05.

(* ------------------------------------------------------------------ *)
(** ** The prediction log [data/predictions.csv] *)

Module Log.

(** One row; [None] is a missing (NaN) cell.  [ts] is the parsed
    timestamp. *)
Record LogRow := mkLogRow {
  ts : Z;
  log_PU_DO : option string;
  log_trip_distance : option Q;
  prediction : option Q;
  duration : option Q
}.

(** The file system paths the simulator and the monitor touch. *)
Record FS := mkFS {
  data_dir : bool;                        (* data/ exists *)
  predictions_csv : option (list LogRow)  (* data/predictions.csv *)
}.

End Log.

(* ------------------------------------------------------------------ *)
(** ** 05-monitoring/monitor.py *)

Module Monitor.
Import Log.

(** How [main] ends: the existence check raises, [pd.read_csv] raises, or
    [main] reaches [report.run(reference_data=..., current_data=...)] with
    these windows (what Evidently then computes is outside the model). *)
Inductive Outcome :=
| FileNotFoundError (msg : string)
| DriftReport (reference current : list LogRow)
| ReadCsvError (exn : string).

(** An existing [data/predictions.csv], as [pd.read_csv(LOG_PATH,
    parse_dates=["ts"])] sees it: the rows it parses, or a file it cannot
    parse (a 0-byte file gives [EmptyDataError]). *)
Inductive CsvFile :=
| CsvRows (rows : list LogRow)
| CsvUnparseable (exn : string).

Definition notna {A} (o : option A) : bool :=
  match o with Some _ => true | None => false end.

(** [df.dropna(subset=["prediction", "duration"])] *)
Definition dropna (df : list LogRow) : list LogRow :=
  filter (fun r => notna (prediction r) && notna (duration r)) df.

(** [main()] past the existence check and [pd.read_csv]: [None] when the
    file is absent, [Some df] the parsed rows; [df.sort_values("ts")] is
    given as [sort_values]. *)
Definition main (sort_values : list LogRow -> list LogRow)
    (log : option (list LogRow)) : Outcome :=
  match log with
  | None => FileNotFoundError "No logged predictions found. Run simulate.py first!"
  | Some df =>
      let df := dropna df in
      let df := sort_values df in
      let midpoint := Nat.div (length df) 2 in
      let reference := firstn midpoint df in
      let current := skipn midpoint df in
      DriftReport reference current
  end.

(** [main()] on the file itself: [pd.read_csv] may raise before [dropna]. *)
Definition main_on_file (sort_values : list LogRow -> list LogRow)
    (file : option CsvFile) : Outcome :=
  match file with
  | None => main sort_values None
  | Some (CsvUnparseable exn) => ReadCsvError exn
  | Some (CsvRows df) => main sort_values (Some df)
  end.

(** One admissible [sort_values("ts")]: a stable merge sort on [ts]. *)
Module TsOrder <: TotalLeBool'.
Definition t := LogRow.
Definition leb (a b : LogRow) : bool := Z.leb (ts a) (ts b).
Lemma leb_total : forall a b, leb a b = true \/ leb b a = true.
Proof. intros a b; unfold leb; destruct (Z.leb_spec (ts a) (ts b)); lia. Qed.
End TsOrder.

Module TsSort := Sort TsOrder.

End Monitor.

(* ------------------------------------------------------------------ *)
(** ** 05-monitoring/simulate.py *)

Module Simulate.
Import Log.

(** Module level: [LOG_PATH.parent.mkdir(parents=True, exist_ok=True)]. *)
Definition import_module (fs : FS) : FS := mkFS true (predictions_csv fs).

(** [main()], given the frame [out] collected by [simulate_requests]. *)
Definition main (out : list LogRow) (fs : FS) : FS :=
  match out with
  | [] => fs                                   (* if out.empty: return *)
  | _ =>
      let out := match predictions_csv fs with
                 | Some prev => (prev ++ out)%list  (* pd.concat([prev, out]) *)
                 | None => out
                 end in
      mkFS (data_dir fs) (Some out)            (* out.to_csv(LOG_PATH) *)
  end.

End Simulate.

(* ------------------------------------------------------------------ *)
(** ** [simulate_requests] (05-monitoring/simulate.py) *)

Module SimulateRequests.
Import PyStr Log.

(** The JSON payload built from a row: [int(...)], [int(...)], [float(...)]
    of columns that already hold ints and floats. *)
Definition payload (t : Train.Trip) : Http.RawRide :=
  Http.mkRawRide (Train.PULocationID (Train.raw t)) (Train.DOLocationID (Train.raw t))
    (Train.trip_distance (Train.raw t)).

(** [requests.post(API_URL, json=payload)], [resp.raise_for_status()] and
    [resp.json()["duration"]] against a server answering with [serve]:
    [None] when one of them raises (any status other than 200). *)
Definition post_to (serve : Http.Request -> Http.Response) (p : Http.RawRide) : option Q :=
  match serve (Http.PostPredict p) with
  | Http.Ok200 (Http.BPrediction r) => Some (Http.duration r)
  | _ => None
  end.

(** The dict appended to [rows] after a successful request. *)
Definition log_row (now : Z) (t : Train.Trip) (pred : Q) : LogRow :=
  let p := payload t in
  mkLogRow now
    (Some (fstring [FInt (Http.raw_PULocationID p); FLit "_"; FInt (Http.raw_DOLocationID p)]))
    (Some (Http.raw_trip_distance p))
    (Some pred)
    (Some (Train.duration t)).

(** [simulate_requests(df)]: [post] answers each payload (or raises), and
    [clock i] is [pd.Timestamp.utcnow()] at the row with index [i]; a
    failed request is reported and skipped. *)
Fixpoint simulate_requests (post : Http.RawRide -> option Q) (clock : nat -> Z)
    (i : nat) (df : list Train.Trip) : list LogRow :=
  match df with
  | [] => []
  | t :: df' =>
      match post (payload t) with
      | Some pred => log_row (clock i) t pred :: simulate_requests post clock (S i) df'
      | None => simulate_requests post clock (S i) df'
      end
  end.

(** A log row with every cell present. *)
Definition complete (r : LogRow) : bool :=
  Monitor.notna (prediction r) && Monitor.notna (duration r)
  && Monitor.notna (log_PU_DO r) && Monitor.notna (log_trip_distance r).

End SimulateRequests.

(* ------------------------------------------------------------------ *)
(** ** [train_and_log]: what training leaves for the services *)

Module TrainAndLog.
Import Http.

(** The tracking URI 05-monitoring/train.py hard-codes. *)
Definition MLFLOW_TRACKING_URI : string := "http://localhost:5000".

(** 05-monitoring/train.py: [mlflow.sklearn.log_model(pipeline, "model")]
    stores the fitted pipeline under [runs:/<run_id>/model], then
    [run_id.txt] is overwritten with [run_id]; [run_id] is returned.  The
    fitted pipeline and MLflow's fresh run id are inputs. *)
Definition train_and_log05 (run_id : string) (pipeline : Model) (fs : App05.Files)
  : App05.Files * string :=
  (App05.mkFiles (Some (PyText.write_text run_id)) (App05.env_tracking_uri fs)
     (fun uri key =>
        if String.eqb uri MLFLOW_TRACKING_URI && String.eqb key ("runs:/" ++ run_id ++ "/model")
        then Some (Loadable pipeline) else App05.tracking_stores fs uri key),
   run_id).

(** 06-cicd/train.py: [shutil.rmtree] of an existing [models/model], then
    [mlflow.sklearn.save_model] there, then [run_id.txt] is written. *)
Definition train_and_log06 (run_id : string) (pipeline : Model) (fs : App06.Files)
  : App06.Files * string :=
  let fs := App06.mkFiles (App06.run_id_txt fs) None in            (* rmtree *)
  let fs := App06.mkFiles (App06.run_id_txt fs) (Some (Loadable pipeline)) in
  (App06.mkFiles (Some (PyText.write_text run_id)) (App06.models_model fs), run_id).

End TrainAndLog.

(* ------------------------------------------------------------------ *)
(** ** Whitespace predicates for [str.strip] *)

(** No character of [s] is whitespace to [str.strip] (MLflow run ids are
    hex). *)
Fixpoint no_space (s : string) : bool :=
  match s with
  | EmptyString => true
  | String c s' => negb (PyText.is_space c) && no_space s'
  end.

(** Every character of [s] is whitespace to [str.strip]. *)
Fixpoint all_space (s : string) : bool :=
  match s with
  | EmptyString => true
  | String c s' => PyText.is_space c && all_space s'
  end.

(* ------------------------------------------------------------------ *)
(** ** Sample inputs and derived predicates *)

(** The ride request whose fields are those of a training row. *)
Definition ride_of_trip (t : Train.Trip) : Ride.RideRequest :=
  Ride.mkRideRequest (Train.PULocationID (Train.raw t))
    (Train.DOLocationID (Train.raw t)) (Train.trip_distance (Train.raw t)).

Definition sample_row (t : Z) : Log.LogRow :=
  Log.mkLogRow t (Some "138_236") (Some (5 # 2)) (Some 10) (Some 11).

(** The constant model that always answers 12 minutes. *)
Definition const_model : Http.Model := Http.mkModel (fun xs => map (fun _ => 12%Q) xs).

(** Startup files where [run_id.txt] names a run whose model the tracking
    store cannot provide. *)
Definition files05_no_model : App05.Files :=
  App05.mkFiles (Some (PyText.FileText "abc123def456")) None (fun _ _ => None).

(** The degraded [/health] body. *)
Definition degraded_health (st : App06.State) : Http.Response :=
  Http.Ok200 (Http.BHealth
    (Http.mkHealthBody "degraded" (PyStr.or_unknown (App06.RUN_ID st)) (Some false))).

(** Ordering of log rows by timestamp, as [sort_values("ts")] orders them. *)
Definition ts_le (a b : Log.LogRow) : Prop := (Log.ts a <= Log.ts b)%Z.

(** A log of three complete rows, one incomplete, out of timestamp order. *)
Definition sample_log : list Log.LogRow :=
  [sample_row 30; Log.mkLogRow 5 (Some "1_2") (Some 1) (Some 3) None;
   sample_row 10; sample_row 20].

(** The bounds [load_data] applies, as one predicate: closed on the
    duration, open on the distance. *)
Definition trip_in_bounds (t : Train.Trip) : bool :=
  Qle_bool 1 (Train.duration t) && Qle_bool (Train.duration t) 60
  && Train.Qltb 0 (Train.trip_distance (Train.raw t))
  && Train.Qltb (Train.trip_distance (Train.raw t)) 100.

(** Trips with a duration of exactly 1 and exactly 60 minutes, 1 mile each. *)
Definition trip_1min : Train.RawTrip := Train.mkRawTrip 0 60000000 138 236 1.
Definition trip_60min : Train.RawTrip := Train.mkRawTrip 0 3600000000 138 236 1.

(** A ten-minute trip of 2.5 miles. *)
Definition sample_trip : Train.Trip :=
  Train.mkTrip (Train.mkRawTrip 0 600000000 138 236 (5 # 2)) 10.

(* ================================================================== *)
(** * Properties *)

Lemma string_append_assoc (a b c : string) : (a ++ b) ++ c = a ++ (b ++ c).
Proof. induction a as [|x a IH]; simpl; [reflexivity | now rewrite IH]. Qed.

Lemma string_append_nil_r (a : string) : a ++ "" = a.
Proof. induction a as [|x a IH]; simpl; [reflexivity | now rewrite IH]. Qed.

(** The f-string of [predict] is [str(pu) ++ "_" ++ str(do)]. *)
Lemma feature_key_fstring (pu do_ : Z) :
  PyStr.fstring [PyStr.FInt pu; PyStr.FLit "_"; PyStr.FInt do_]
  = PyStr.py_str_int pu ++ "_" ++ PyStr.py_str_int do_.
Proof.
  simpl. unfold PyStr.int_format_empty. now rewrite string_append_nil_r.
Qed.

(** Helper: [prepare_features] builds, row by row, the dict of its row. *)
Lemma prepare_features_rows (df : list Train.Trip) :
  fst (Train.prepare_features df) = map (fun t => Ride.feature_dict (ride_of_trip t)) df.
Proof.
  unfold Train.prepare_features, Train.series_add, Train.series_add_scalar,
    Train.series_astype_str; simpl fst.
  induction df as [|t df IH]; [reflexivity|].
  simpl. rewrite IH. f_equal. unfold Ride.feature_dict, ride_of_trip; simpl.
  unfold PyStr.int_format_empty. now rewrite string_append_nil_r, string_append_assoc.
Qed.

(** C1. Train/serve parity: for every training row, the [PU_DO] key that
    [prepare_features] builds with [astype(str) + "_" + astype(str)] is the
    string that [predict] builds with [f"{PULocationID}_{DOLocationID}"] for
    the same two IDs (for every integer ID, so in particular for positive
    ones); the key lists agree position by position. *)
Theorem zone_pair_key_train_serve_parity (df : list Train.Trip) :
  map PU_DO (fst (Train.prepare_features df))
  = map (fun t => PU_DO (Ride.feature_dict (ride_of_trip t))) df.
Proof. rewrite prepare_features_rows, map_map. reflexivity. Qed.

(** C8. Encoder determinism and pass-through: the dict that [predict]
    encodes is a function of the three request fields only (two requests
    with equal fields give equal dicts, no hidden input), its key is
    [str(PU) ++ "_" ++ str(DO)], and its [trip_distance] is the request's,
    unchanged. *)
Theorem encode_deterministic_pass_through (r1 r2 : Ride.RideRequest) :
  (Ride.PULocationID r1 = Ride.PULocationID r2 ->
   Ride.DOLocationID r1 = Ride.DOLocationID r2 ->
   Ride.trip_distance r1 = Ride.trip_distance r2 ->
   Ride.feature_dict r1 = Ride.feature_dict r2) /\
  PU_DO (Ride.feature_dict r1)
    = PyStr.py_str_int (Ride.PULocationID r1) ++ "_"
      ++ PyStr.py_str_int (Ride.DOLocationID r1) /\
  fd_trip_distance (Ride.feature_dict r1) = Ride.trip_distance r1.
Proof.
  split; [|split].
  - intros Hpu Hdo Hd. unfold Ride.feature_dict. now rewrite Hpu, Hdo, Hd.
  - apply feature_key_fstring.
  - reflexivity.
Qed.

(** C8 on a concrete request, both parts evaluated. *)
Lemma encode_deterministic_pass_through_witness :
  Ride.feature_dict (Ride.mkRideRequest 138 236 (5 # 2))
    = Ride.feature_dict (Ride.mkRideRequest 138 236 (5 # 2)) /\
  PU_DO (Ride.feature_dict (Ride.mkRideRequest 138 236 (5 # 2))) = "138_236".
Proof.
  split.
  - apply (encode_deterministic_pass_through
             (Ride.mkRideRequest 138 236 (5 # 2)) (Ride.mkRideRequest 138 236 (5 # 2)));
      reflexivity.
  - vm_compute. reflexivity.
Defined.

(** C9. Empty simulation leaves the file system alone: when
    [simulate_requests] collected no row, [main] returns before
    [to_csv], so [data/predictions.csv] (present or absent) is unchanged. *)
Theorem simulate_empty_frame (fs : Log.FS) :
  Simulate.main [] fs = fs.
Proof. reflexivity. Qed.

(** C7. Logger append: for a non-empty batch [E], one run of [main] leaves
    in the log the previous rows [P] followed by [E], in order, or exactly
    [E] when there was no log file. *)
Theorem simulate_append_semantics (E : list Log.LogRow) (fs : Log.FS) :
  E <> [] ->
  Log.predictions_csv (Simulate.main E fs)
  = Some match Log.predictions_csv fs with
         | Some P => (P ++ E)%list
         | None => E
         end.
Proof. intros HE. destruct E as [|e E']; [congruence|]. reflexivity. Qed.

(** C7 at a log of two rows and a batch of one. *)
Lemma simulate_append_semantics_witness :
  Log.predictions_csv
    (Simulate.main [sample_row 3] (Log.mkFS true (Some [sample_row 1; sample_row 2])))
  = Some [sample_row 1; sample_row 2; sample_row 3].
Proof.
  apply (simulate_append_semantics [sample_row 3]
           (Log.mkFS true (Some [sample_row 1; sample_row 2]))).
  discriminate.
Defined.

(** Startup of the CI/CD service fails only on the [run_id.txt] read, and
    takes the model only from [models/model]. *)
Lemma app06_lifespan_spec (fs : App06.Files) :
  match App06.lifespan fs with
  | inr exn => (exists why, App06.run_id_txt fs = Some (PyText.FileUnreadable why))
  | inl st =>
      (App06.model st = match App06.models_model fs with
                        | Some (Http.Loadable m) => Some m
                        | _ => None
                        end) /\
      (App06.RUN_ID st = match App06.run_id_txt fs with
                         | Some (PyText.FileText txt) =>
                             Some (PyText.strip (PyText.universal_newlines txt))
                         | _ => None
                         end)
  end.
Proof.
  unfold App06.lifespan.
  destruct (App06.run_id_txt fs) as [[txt|why]|]; simpl;
    try (eexists; reflexivity);
    destruct (App06.models_model fs) as [[m|]|]; split; reflexivity.
Qed.

(** Once the CI/CD service has started without a model, its [/predict]
    answers 500 to every body that passes validation, 422 to the others. *)
Lemma app06_no_model_predict (st : App06.State) (b : Http.RawRide) :
  App06.model st = None ->
  App06.handle st (Http.PostPredict b)
  = match Http.validate b with
    | None => Http.HttpError 422 "validation error"
    | Some _ => Http.HttpError 500 "Model not loaded. Check /health."
    end.
Proof.
  intros Hm. unfold App06.handle, Http.post_predict.
  destruct (Http.validate b); [|reflexivity]. unfold App06.predict. now rewrite Hm.
Qed.

(** C10. In the CI/CD service the run id and the model are independent:
    with [run_id.txt] absent and a loadable model, [/predict] succeeds with
    [model_version = "unknown"] and [/health] says ["ok"] with run id
    ["unknown"]; and for every state [/health]'s status is ["ok"] exactly
    when a model is loaded, whatever [RUN_ID] holds. *)
Theorem app06_run_id_model_independent :
  (forall (m : Http.Model) (p : Q),
     Http.model_predict m [Ride.feature_dict (Ride.mkRideRequest 138 236 (5 # 2))] = [p] ->
     exists st,
     App06.lifespan (App06.mkFiles None (Some (Http.Loadable m))) = inl st /\
     App06.handle st (Http.PostPredict (Http.mkRawRide 138 236 (5 # 2)))
       = Http.Ok200 (Http.BPrediction (Http.mkPredictionResponse p "unknown")) /\
     App06.handle st Http.GetHealth
       = Http.Ok200 (Http.BHealth (Http.mkHealthBody "ok" "unknown" (Some true)))) /\
  (forall st : App06.State,
     App06.health st = Http.Ok200 (Http.BHealth (Http.mkHealthBody "ok"
                          (PyStr.or_unknown (App06.RUN_ID st)) (Some true)))
     <-> App06.model st <> None).
Proof.
  split.
  - intros m p Hp. eexists. split; [reflexivity|].
    unfold App06.handle, Http.post_predict, App06.predict,
      App06.health, App06.is_loaded, Http.predict_first; simpl.
    rewrite Hp. split; reflexivity.
  - intros [rid [m|]]; unfold App06.health, App06.is_loaded; simpl; split.
    + intros _; discriminate.
    + reflexivity.
    + intros H; inversion H.
    + intros H; now contradiction H.
Qed.

(** C10 instantiated with that model. *)
Lemma app06_run_id_model_independent_witness :
  exists st,
    App06.lifespan (App06.mkFiles None (Some (Http.Loadable const_model))) = inl st /\
    App06.handle st (Http.PostPredict (Http.mkRawRide 138 236 (5 # 2)))
    = Http.Ok200 (Http.BPrediction (Http.mkPredictionResponse 12 "unknown")).
Proof.
  destruct (proj1 app06_run_id_model_independent const_model 12 eq_refl) as (st & Hst & Hp & _).
  exists st. split; assumption.
Defined.

(** [Qltb] decides [<] on rationals. *)
Lemma Qltb_iff (x y : Q) : Train.Qltb x y = true <-> (x < y)%Q.
Proof.
  unfold Train.Qltb. rewrite negb_true_iff. split.
  - intros H. apply Qnot_le_lt. intros Hle. apply Qle_bool_iff in Hle. congruence.
  - intros H. destruct (Qle_bool y x) eqn:E; [|reflexivity].
    apply Qle_bool_iff in E. exfalso. apply (Qlt_not_le x y); assumption.
Qed.

(** C6. Validation boundary: a body whose pickup ID or dropoff ID is below
    1, or whose distance is not positive, is answered with 422 whatever the
    endpoint function is (so it is never called: no encoding, no model), in
    both services and whatever their state; a body meeting the three
    constraints reaches the endpoint as the validated [RideRequest]. *)
Theorem validation_boundary (b : Http.RawRide) :
  ((Http.raw_PULocationID b < 1)%Z \/ (Http.raw_DOLocationID b < 1)%Z
     \/ (Http.raw_trip_distance b <= 0)%Q ->
   (forall endpoint, Http.post_predict endpoint b = Http.HttpError 422 "validation error") /\
   (forall st, App06.handle st (Http.PostPredict b) = Http.HttpError 422 "validation error") /\
   (forall st, App05.handle st (Http.PostPredict b) = Http.HttpError 422 "validation error"))
  /\
  ((1 <= Http.raw_PULocationID b)%Z -> (1 <= Http.raw_DOLocationID b)%Z ->
   (0 < Http.raw_trip_distance b)%Q ->
   forall endpoint, Http.post_predict endpoint b
     = endpoint (Ride.mkRideRequest (Http.raw_PULocationID b) (Http.raw_DOLocationID b)
                                    (Http.raw_trip_distance b))).
Proof.
  assert (Hrej : ((Http.raw_PULocationID b < 1)%Z \/ (Http.raw_DOLocationID b < 1)%Z
                  \/ (Http.raw_trip_distance b <= 0)%Q) ->
                 Http.validate b = None).
  { intros H. unfold Http.validate.
    destruct (Z.leb_spec 1 (Http.raw_PULocationID b)); simpl; [|reflexivity].
    destruct (Z.leb_spec 1 (Http.raw_DOLocationID b)); simpl; [|reflexivity].
    destruct (Train.Qltb 0 (Http.raw_trip_distance b)) eqn:E; [|reflexivity].
    apply Qltb_iff in E. destruct H as [H|[H|H]]; [lia|lia|].
    exfalso. apply (Qlt_not_le _ _ E H). }
  split.
  - intros H. apply Hrej in H.
    unfold App06.handle, App05.handle, Http.post_predict. rewrite H. auto.
  - intros H1 H2 H3 endpoint. unfold Http.post_predict, Http.validate.
    apply Z.leb_le in H1. apply Z.leb_le in H2. apply Qltb_iff in H3.
    rewrite H1, H2, H3. reflexivity.
Qed.

(** C6 at a rejected body (distance 0) and an accepted one. *)
Lemma validation_boundary_witness :
  Http.post_predict (fun _ => Http.HttpError 500 "unused") (Http.mkRawRide 138 236 0)
    = Http.HttpError 422 "validation error" /\
  Http.post_predict (fun r => Http.Ok200 (Http.BMessage (PyStr.py_str_int (Ride.PULocationID r))))
    (Http.mkRawRide 138 236 (5 # 2))
    = Http.Ok200 (Http.BMessage "138").
Proof.
  split.
  - apply (proj1 (validation_boundary (Http.mkRawRide 138 236 0))).
    right; right. simpl. vm_compute. discriminate.
  - rewrite (proj2 (validation_boundary (Http.mkRawRide 138 236 (5 # 2)))); simpl.
    + vm_compute. reflexivity.
    + lia.
    + lia.
    + vm_compute. reflexivity.
Defined.

(** C2 refuted on the monitoring-stage service: there the model load is
    unguarded, so with no loadable artifact the startup hook raises and the
    process answers no request at all, not even [/health]. *)
Lemma app05_load_failure_no_degraded_mode :
  ~ (exists rs, App05.run files05_no_model [Http.GetHealth] = Http.Serving rs).
Proof. intros [rs H]. discriminate H. Qed.

(** C2, amended.  In the CI/CD service, when startup finds no loadable model
    ([models/model] absent, or its load raising) and [run_id.txt] is absent
    or readable, the process still starts and answers every later request
    from the same state: [/health] reports ["degraded"] with
    [model_loaded = false], and [/predict] answers 500 for every body that
    passes validation (422 for one that does not).  A [run_id.txt] that
    exists but cannot be read makes its startup raise.  The
    monitoring-stage service has no degraded mode: a missing or unreadable
    [run_id.txt], or a model the tracking store cannot load, makes its
    startup fail, and its [/health] always reports ["ok"]. *)
Theorem degraded_mode_cicd_only :
  (forall (fs : App06.Files) (reqs : list Http.Request),
     App06.models_model fs = None \/ App06.models_model fs = Some Http.Corrupt ->
     App06.run_id_txt fs = None \/
       (exists txt, App06.run_id_txt fs = Some (PyText.FileText txt)) ->
     exists st,
     App06.lifespan fs = inl st /\
     App06.model st = None /\
     App06.run fs reqs = Http.Serving (map (App06.handle st) reqs) /\
     App06.handle st Http.GetHealth = degraded_health st /\
     (forall b, App06.handle st (Http.PostPredict b)
                = match Http.validate b with
                  | None => Http.HttpError 422 "validation error"
                  | Some _ => Http.HttpError 500 "Model not loaded. Check /health."
                  end)) /\
  (forall (fs : App06.Files) (reqs : list Http.Request) (why : string),
     App06.run_id_txt fs = Some (PyText.FileUnreadable why) ->
     App06.run fs reqs = Http.StartupFailed why) /\
  (forall (fs : App05.Files) (reqs : list Http.Request),
     (App05.run_id_txt fs = None \/
      (exists why, App05.run_id_txt fs = Some (PyText.FileUnreadable why)) \/
      (exists txt, App05.run_id_txt fs = Some (PyText.FileText txt) /\
         match App05.tracking_stores fs
                 (match App05.env_tracking_uri fs with
                  | Some u => u
                  | None => App05.default_tracking_uri
                  end)
                 ("runs:/" ++ PyText.strip (PyText.universal_newlines txt) ++ "/model") with
         | Some (Http.Loadable _) => False
         | _ => True
         end)) ->
     exists exn, App05.run fs reqs = Http.StartupFailed exn) /\
  (forall st : App05.State,
     exists rid, App05.health st = Http.Ok200 (Http.BHealth (Http.mkHealthBody "ok" rid None))).
Proof.
  split; [|split; [|split]].
  - intros fs reqs Hfail Hrid.
    assert (Hm : match App06.models_model fs with
                 | Some (Http.Loadable m) => Some m
                 | _ => None
                 end = None).
    { destruct Hfail as [H|H]; now rewrite H. }
    unfold App06.run, App06.lifespan.
    destruct Hrid as [H|[txt H]]; rewrite H; simpl;
      (eexists; split; [reflexivity|]); simpl;
      (split; [exact Hm|]); (split; [reflexivity|]);
      (split; [unfold App06.handle, App06.health, degraded_health, App06.is_loaded;
               simpl; now rewrite Hm|]);
      intros b; apply app06_no_model_predict; exact Hm.
  - intros fs reqs why H. unfold App06.run, App06.lifespan. now rewrite H.
  - intros fs reqs [H|[[why H]|[txt [H Hs]]]]; unfold App05.run, App05.lifespan; rewrite H;
      simpl; try (eexists; reflexivity).
    destruct (App05.tracking_stores fs _ _) as [[m|]|]; [contradiction| |];
      eexists; reflexivity.
  - intros st. eexists. reflexivity.
Qed.

(** C2 (amended) at a CI/CD start with no [models/model] and a run id
    followed by a newline, at one whose [run_id.txt] cannot be read, and at
    the monitoring-stage start of [files05_no_model]. *)
Lemma degraded_mode_cicd_only_witness :
  App06.run (App06.mkFiles (Some (PyText.FileText ("abc123def456" ++ String (ascii_of_nat 10) ""))) None)
      [Http.GetHealth; Http.PostPredict (Http.mkRawRide 138 236 (5 # 2))]
    = Http.Serving
        [Http.Ok200 (Http.BHealth (Http.mkHealthBody "degraded" "abc123def456" (Some false)));
         Http.HttpError 500 "Model not loaded. Check /health."] /\
  App06.run (App06.mkFiles (Some (PyText.FileUnreadable "IsADirectoryError")) None)
      [Http.GetHealth]
    = Http.StartupFailed "IsADirectoryError" /\
  (exists exn, App05.run files05_no_model [Http.GetHealth] = Http.StartupFailed exn).
Proof.
  split; [|split].
  - destruct (proj1 degraded_mode_cicd_only
                (App06.mkFiles (Some (PyText.FileText ("abc123def456" ++ String (ascii_of_nat 10) ""))) None)
                [Http.GetHealth; Http.PostPredict (Http.mkRawRide 138 236 (5 # 2))]
                (or_introl eq_refl) (or_intror (ex_intro _ _ eq_refl)))
      as [st [Hst [_ [Hrun _]]]].
    rewrite Hrun. vm_compute in Hst. injection Hst as <-. vm_compute. reflexivity.
  - apply (proj1 (proj2 degraded_mode_cicd_only)). reflexivity.
  - apply (proj1 (proj2 (proj2 degraded_mode_cicd_only)) files05_no_model [Http.GetHealth]).
    right. right. exists "abc123def456". split; [reflexivity|]. exact I.
Defined.

(** In a strongly sorted concatenation every element of the left part is
    below every element of the right part. *)
Lemma StronglySorted_app_split {A} (R : A -> A -> Prop) (l1 l2 : list A) :
  StronglySorted R (l1 ++ l2) -> forall a b, In a l1 -> In b l2 -> R a b.
Proof.
  induction l1 as [|x l1 IH]; simpl; [tauto|].
  intros Hs a b [<-|Ha] Hb; apply StronglySorted_inv in Hs as [Hs Hall].
  - rewrite Forall_forall in Hall. apply Hall, in_or_app. now right.
  - now apply IH.
Qed.

(** The merge sort on [ts] is a permutation. *)
Lemma ts_sort_perm (l : list Log.LogRow) : Permutation (Monitor.TsSort.sort l) l.
Proof. apply Permutation_sym, Monitor.TsSort.Permuted_sort. Qed.

(** The merge sort on [ts] sorts by timestamp. *)
Lemma ts_sort_sorted (l : list Log.LogRow) : Sorted ts_le (Monitor.TsSort.sort l).
Proof.
  generalize (Monitor.TsSort.Sorted_sort l).
  apply Sorted_ind; intros; constructor; auto.
  inversion H1; constructor. unfold ts_le. now apply Z.leb_le.
Qed.

Section Monitoring.
(** [df.sort_values("ts")]: any permutation of its input, ascending in
    [ts] (pandas' default quicksort does not fix the order of ties). *)
Variable sort_values : list Log.LogRow -> list Log.LogRow.
Hypothesis sort_values_perm : forall l, Permutation (sort_values l) l.
Hypothesis sort_values_sorted : forall l, Sorted ts_le (sort_values l).

(** C3, amended.  [main] raises [FileNotFoundError] when the log file is
    absent, and [pd.read_csv] raises when the file exists but cannot be
    parsed (a 0-byte file gives [EmptyDataError]).  When the file parses,
    [main] does not count the complete rows: it drops the rows lacking a
    prediction or a ground-truth duration and always reaches the drift
    report, also with zero or one complete row, in which case the reference
    window is empty and the current window holds that row, if any. *)
Theorem monitor_empty_log_only_when_absent :
  Monitor.main_on_file sort_values None
    = Monitor.FileNotFoundError "No logged predictions found. Run simulate.py first!" /\
  (forall exn : string,
     Monitor.main_on_file sort_values (Some (Monitor.CsvUnparseable exn))
     = Monitor.ReadCsvError exn) /\
  forall df : list Log.LogRow,
    exists reference current,
      Monitor.main_on_file sort_values (Some (Monitor.CsvRows df))
        = Monitor.DriftReport reference current /\
      (length (Monitor.dropna df) < 2 ->
       reference = [] /\ Permutation current (Monitor.dropna df))%nat.
Proof.
  split; [reflexivity|]. split; [reflexivity|].
  intros df. eexists; eexists; split; [reflexivity|].
  intros Hlt.
  pose proof (Permutation_length (sort_values_perm (Monitor.dropna df))) as Hlen.
  rewrite Hlen. assert (Nat.div (length (Monitor.dropna df)) 2 = 0)%nat as ->.
  { apply Nat.div_small. lia. }
  split; [reflexivity|]. apply sort_values_perm.
Qed.

(** C5. Drift split: for a log whose complete rows number [N] (any [N],
    so all [N >= 2]), [main] splits the timestamp-sorted complete rows at
    [N / 2]: the reference window is the first [N / 2] rows, the current
    window the other [N - N / 2]; together, in order, they are the sorted
    rows (so they are disjoint and cover the complete rows), every
    reference row is no newer than every current row, and the split is a
    function of the log alone. *)
Theorem drift_split_midpoint (df : list Log.LogRow) :
  let N := length (Monitor.dropna df) in
  let s := sort_values (Monitor.dropna df) in
  Monitor.main sort_values (Some df)
    = Monitor.DriftReport (firstn (N / 2) s) (skipn (N / 2) s) /\
  length (firstn (N / 2) s) = (N / 2)%nat /\
  length (skipn (N / 2) s) = (N - N / 2)%nat /\
  (firstn (N / 2) s ++ skipn (N / 2) s)%list = s /\
  Permutation s (Monitor.dropna df) /\
  (forall a b, In a (firstn (N / 2) s) -> In b (skipn (N / 2) s) -> ts_le a b).
Proof.
  intros N s.
  assert (Hlen : length s = N) by apply (Permutation_length (sort_values_perm _)).
  unfold Monitor.main. fold s. rewrite Hlen.
  split; [reflexivity|]. split; [|split; [|split; [|split]]].
  - rewrite length_firstn. apply Nat.min_l. rewrite Hlen. apply Nat.Div0.div_le_upper_bound; lia.
  - rewrite length_skipn. lia.
  - apply firstn_skipn.
  - apply sort_values_perm.
  - apply StronglySorted_app_split. rewrite firstn_skipn.
    apply Sorted_StronglySorted; [|apply sort_values_sorted].
    intros x y z; unfold ts_le; lia.
Qed.

End Monitoring.

(** C3 (amended) with the merge sort: a parsed log with one complete row
    reaches the report, a 0-byte file stops at [pd.read_csv]. *)
Lemma monitor_empty_log_only_when_absent_witness :
  (exists reference current,
    Monitor.main_on_file Monitor.TsSort.sort (Some (Monitor.CsvRows [sample_row 10]))
    = Monitor.DriftReport reference current) /\
  Monitor.main_on_file Monitor.TsSort.sort (Some (Monitor.CsvUnparseable "EmptyDataError"))
    = Monitor.ReadCsvError "EmptyDataError".
Proof.
  destruct (monitor_empty_log_only_when_absent Monitor.TsSort.sort ts_sort_perm)
    as [_ [Hexn Hrows]].
  split; [|apply Hexn].
  destruct (Hrows [sample_row 10]) as [r [c [H _]]].
  exists r, c. exact H.
Defined.

(** C3 refuted: a log file whose only complete row is one (here with an
    incomplete row besides) does not make [main] fail; it reaches the drift
    report with an empty reference window. *)
Lemma monitor_one_complete_row_reaches_report :
  Monitor.main_on_file Monitor.TsSort.sort
    (Some (Monitor.CsvRows [sample_row 10; Log.mkLogRow 5 (Some "1_2") (Some 1) (Some 3) None]))
  = Monitor.DriftReport [] [sample_row 10].
Proof. vm_compute. reflexivity. Qed.

(** C5 with the merge sort on [sample_log]: three complete rows split 1 / 2. *)
Lemma drift_split_midpoint_witness :
  Monitor.main Monitor.TsSort.sort (Some sample_log)
  = Monitor.DriftReport [sample_row 10] [sample_row 20; sample_row 30].
Proof.
  rewrite (proj1 (drift_split_midpoint Monitor.TsSort.sort ts_sort_perm ts_sort_sorted sample_log)).
  vm_compute. reflexivity.
Defined.

Lemma filter_filter_andb {A} (f g : A -> bool) (l : list A) :
  filter g (filter f l) = filter (fun x => f x && g x) l.
Proof.
  induction l as [|x l IH]; simpl; [reflexivity|].
  destruct (f x); simpl; [destruct (g x); simpl; now rewrite IH | exact IH].
Qed.

(** C4 refuted: [load_data] keeps the trips of exactly 1 and exactly 60
    minutes, which the claim says are discarded. *)
Lemma load_data_keeps_boundary_durations :
  map Train.raw (Train.load_data Train.default_limit [trip_1min; trip_60min])
  = [trip_1min; trip_60min].
Proof. vm_compute. reflexivity. Qed.

(** C4, amended.  [load_data limit] keeps, in input order, the first [limit]
    records among those whose duration [d] satisfies [1 <= d <= 60] and
    whose distance [x] satisfies [0 < x < 100], dropping the others without
    error; a record is among those exactly when it meets these bounds. *)
Theorem load_data_bounds (limit : nat) (df : list Train.RawTrip) :
  Train.load_data limit df = firstn limit (filter trip_in_bounds (Train.with_duration df)) /\
  (forall t, In t (filter trip_in_bounds (Train.with_duration df)) <->
     In t (Train.with_duration df) /\
     (1 <= Train.duration t <= 60)%Q /\
     (0 < Train.trip_distance (Train.raw t) < 100)%Q).
Proof.
  split.
  - unfold Train.load_data. rewrite filter_filter_andb. f_equal.
    apply filter_ext. intros t. unfold trip_in_bounds, Train.duration_mask, Train.distance_mask.
    now rewrite !andb_assoc.
  - intros t. rewrite filter_In. unfold trip_in_bounds.
    rewrite !andb_true_iff, !Qle_bool_iff, !Qltb_iff. tauto.
Qed.

(* ------------------------------------------------------------------ *)
(** ** [str.strip], training's files and the services' startup *)

Lemma rev_string_app (a b : string) :
  PyText.rev_string (a ++ b) = PyText.rev_string b ++ PyText.rev_string a.
Proof.
  induction a as [|c a IH]; simpl.
  - now rewrite string_append_nil_r.
  - now rewrite IH, string_append_assoc.
Qed.

Lemma rev_string_involutive (s : string) : PyText.rev_string (PyText.rev_string s) = s.
Proof.
  induction s as [|c s IH]; simpl; [reflexivity|].
  now rewrite rev_string_app, IH.
Qed.

Lemma no_space_app (a b : string) : no_space (a ++ b) = no_space a && no_space b.
Proof. induction a as [|c a IH]; simpl; [reflexivity|]. now rewrite IH, andb_assoc. Qed.

Lemma all_space_app (a b : string) : all_space (a ++ b) = all_space a && all_space b.
Proof. induction a as [|c a IH]; simpl; [reflexivity|]. now rewrite IH, andb_assoc. Qed.

Lemma no_space_rev (s : string) : no_space (PyText.rev_string s) = no_space s.
Proof.
  induction s as [|c s IH]; simpl; [reflexivity|].
  rewrite no_space_app, IH; simpl. now rewrite andb_true_r, andb_comm.
Qed.

Lemma all_space_rev (s : string) : all_space (PyText.rev_string s) = all_space s.
Proof.
  induction s as [|c s IH]; simpl; [reflexivity|].
  rewrite all_space_app, IH; simpl. now rewrite andb_true_r, andb_comm.
Qed.

Lemma lstrip_all_space (w s : string) :
  all_space w = true -> PyText.lstrip (w ++ s) = PyText.lstrip s.
Proof.
  induction w as [|c w IH]; simpl; [reflexivity|].
  intros H. apply andb_true_iff in H as [Hc Hw]. rewrite Hc. now apply IH.
Qed.

Lemma lstrip_no_space_head (s t : string) :
  no_space s = true -> s <> "" -> PyText.lstrip (s ++ t) = s ++ t.
Proof.
  destruct s as [|c s]; [congruence|]. simpl.
  intros H _. apply andb_true_iff in H as [Hc _]. apply negb_true_iff in Hc. now rewrite Hc.
Qed.

Lemma lstrip_no_space (s : string) : no_space s = true -> PyText.lstrip s = s.
Proof.
  destruct s as [|c s]; simpl; [reflexivity|].
  intros H. apply andb_true_iff in H as [Hc _]. apply negb_true_iff in Hc. now rewrite Hc.
Qed.

Lemma lstrip_all_space_only (w : string) : all_space w = true -> PyText.lstrip w = "".
Proof.
  intros H. rewrite <- (string_append_nil_r w), lstrip_all_space; auto.
Qed.

(** [str.strip] removes surrounding whitespace: a whitespace-free string
    with any whitespace around it is read back as itself, and a string of
    whitespace only becomes empty. *)
Theorem strip_surrounding_whitespace (w1 s w2 : string) :
  all_space w1 = true -> no_space s = true -> all_space w2 = true ->
  PyText.strip (w1 ++ s ++ w2) = s.
Proof.
  intros H1 Hs H2. unfold PyText.strip. rewrite lstrip_all_space by exact H1.
  destruct (string_dec s "") as [->|Hne].
  - simpl. rewrite (lstrip_all_space_only w2 H2). reflexivity.
  - rewrite lstrip_no_space_head by assumption.
    rewrite rev_string_app.
    rewrite lstrip_all_space by (now rewrite all_space_rev).
    rewrite lstrip_no_space by (now rewrite no_space_rev).
    apply rev_string_involutive.
Qed.

(** [strip] at a run id followed by a newline and preceded by a space. *)
Lemma strip_surrounding_whitespace_witness :
  PyText.strip (" " ++ "0a1b2c" ++ String (ascii_of_nat 10) "") = "0a1b2c".
Proof. apply strip_surrounding_whitespace; reflexivity. Defined.

Lemma strip_no_space (s : string) : no_space s = true -> PyText.strip s = s.
Proof.
  intros H. rewrite <- (string_append_nil_r s) at 1.
  change (PyText.strip ("" ++ s ++ "") = s). now apply strip_surrounding_whitespace.
Qed.

Lemma no_space_nonempty_neq (s : string) : s <> "" -> String.eqb s "" = false.
Proof. intros H. now apply String.eqb_neq. Qed.

(** Text-mode reading leaves a string with no whitespace unchanged (a
    carriage return is whitespace). *)
Lemma universal_newlines_no_space (s : string) :
  no_space s = true -> PyText.universal_newlines s = s.
Proof.
  induction s as [|c s IH]; simpl; [reflexivity|].
  intros H. apply andb_true_iff in H as [Hc Hs].
  destruct (Ascii.eqb c PyText.CR) eqn:E.
  - apply Ascii.eqb_eq in E. subst c. vm_compute in Hc. discriminate Hc.
  - now rewrite IH.
Qed.



(** Training then serving, CI/CD stage: after [train_and_log] has written
    [models/model] and [run_id.txt] for a whitespace-free, non-empty run id,
    the service starts with that model and run id: [/health] says ["ok"]
    with that run id and [model_loaded = true], and a valid request gets the
    model's prediction tagged with that run id, whatever was on disk
    before. *)
Theorem train06_then_serve (run_id : string) (pipeline : Http.Model)
    (fs : App06.Files) (b : Http.RawRide) (ride : Ride.RideRequest) (p : Q) :
  no_space run_id = true -> run_id <> "" ->
  Http.validate b = Some ride ->
  Http.model_predict pipeline [Ride.feature_dict ride] = [p] ->
  App06.lifespan (fst (TrainAndLog.train_and_log06 run_id pipeline fs))
    = inl (App06.mkState (Some run_id) (Some pipeline)) /\
  App06.handle (App06.mkState (Some run_id) (Some pipeline)) Http.GetHealth
    = Http.Ok200 (Http.BHealth (Http.mkHealthBody "ok" run_id (Some true))) /\
  App06.handle (App06.mkState (Some run_id) (Some pipeline)) (Http.PostPredict b)
    = Http.Ok200 (Http.BPrediction (Http.mkPredictionResponse p run_id)).
Proof.
  intros Hs Hne Hv Hp. split; [|split].
  - unfold App06.lifespan, TrainAndLog.train_and_log06; simpl.
    rewrite universal_newlines_no_space, strip_no_space by exact Hs. reflexivity.
  - unfold App06.handle, App06.health, App06.is_loaded, PyStr.or_unknown; simpl.
    now rewrite no_space_nonempty_neq by exact Hne.
  - unfold App06.handle, Http.post_predict, App06.predict, Http.predict_first,
      PyStr.or_unknown; simpl.
    rewrite no_space_nonempty_neq by exact Hne. now rewrite Hv, Hp.
Qed.

(** The train-then-serve round trip with the constant model. *)
Lemma train06_then_serve_witness :
  App06.lifespan (fst (TrainAndLog.train_and_log06 "0a1b2c" const_model
                         (App06.mkFiles None None)))
    = inl (App06.mkState (Some "0a1b2c") (Some const_model)) /\
  App06.handle (App06.mkState (Some "0a1b2c") (Some const_model))
    (Http.PostPredict (Http.mkRawRide 138 236 (5 # 2)))
  = Http.Ok200 (Http.BPrediction (Http.mkPredictionResponse 12 "0a1b2c")).
Proof.
  destruct (train06_then_serve "0a1b2c" const_model (App06.mkFiles None None)
              (Http.mkRawRide 138 236 (5 # 2)) (Ride.mkRideRequest 138 236 (5 # 2)) 12)
    as [H1 [_ H3]].
  - reflexivity.
  - discriminate.
  - vm_compute. reflexivity.
  - reflexivity.
  - split; [exact H1|exact H3].
Defined.

(** Training then serving, monitoring stage: after [train_and_log] has
    logged the pipeline under its run on the tracking server at
    [http://localhost:5000] and written [run_id.txt] for a whitespace-free,
    non-empty run id, the service, when its [MLFLOW_TRACKING_URI] names
    that same server (or is unset, its default), starts with that run id
    and pipeline (its unguarded load finds the artifact) and tags a valid
    request's prediction with that run id. *)
Theorem train05_then_serve (run_id : string) (pipeline : Http.Model)
    (fs : App05.Files) (b : Http.RawRide) (ride : Ride.RideRequest) (p : Q) :
  no_space run_id = true -> run_id <> "" ->
  App05.env_tracking_uri fs = None \/
    App05.env_tracking_uri fs = Some TrainAndLog.MLFLOW_TRACKING_URI ->
  Http.validate b = Some ride ->
  Http.model_predict pipeline [Ride.feature_dict ride] = [p] ->
  App05.lifespan (fst (TrainAndLog.train_and_log05 run_id pipeline fs))
    = inl (App05.mkState (Some run_id) pipeline) /\
  App05.handle (App05.mkState (Some run_id) pipeline) (Http.PostPredict b)
    = Http.Ok200 (Http.BPrediction (Http.mkPredictionResponse p run_id)).
Proof.
  intros Hs Hne Henv Hv Hp. split.
  - unfold App05.lifespan, TrainAndLog.train_and_log05; simpl.
    rewrite universal_newlines_no_space, strip_no_space by exact Hs.
    assert (Hu : match App05.env_tracking_uri fs with
                 | Some u => u
                 | None => App05.default_tracking_uri
                 end = TrainAndLog.MLFLOW_TRACKING_URI).
    { destruct Henv as [H|H]; rewrite H; reflexivity. }
    rewrite Hu, !String.eqb_refl. reflexivity.
  - unfold App05.handle, Http.post_predict, App05.predict, Http.predict_first,
      PyStr.or_unknown; simpl.
    rewrite no_space_nonempty_neq by exact Hne. now rewrite Hv, Hp.
Qed.

(** The monitoring-stage round trip with the constant model. *)
Lemma train05_then_serve_witness :
  App05.lifespan (fst (TrainAndLog.train_and_log05 "0a1b2c" const_model files05_no_model))
    = inl (App05.mkState (Some "0a1b2c") const_model).
Proof.
  refine (proj1 (train05_then_serve "0a1b2c" const_model files05_no_model
                   (Http.mkRawRide 138 236 (5 # 2)) (Ride.mkRideRequest 138 236 (5 # 2)) 12
                   _ _ _ _ _)).
  - reflexivity.
  - discriminate.
  - left. reflexivity.
  - vm_compute. reflexivity.
  - reflexivity.
Defined.



(* ------------------------------------------------------------------ *)
(** ** [prepare_features], [simulate_requests] and how they compose *)

(** [prepare_features] keeps features and target aligned: both have one
    entry per row, and at every position [n] the feature dict is built from
    row [n] alone (its [PU_DO] key is [str(PULocationID) + "_" +
    str(DOLocationID)], its distance the row's) while the target is row
    [n]'s duration. *)
Theorem prepare_features_aligned (df : list Train.Trip) :
  length (fst (Train.prepare_features df)) = length df /\
  length (snd (Train.prepare_features df)) = length df /\
  (forall (n : nat) (t : Train.Trip), nth_error df n = Some t ->
     nth_error (fst (Train.prepare_features df)) n
       = Some (mkFeatureDict
                 (PyStr.py_str_int (Train.PULocationID (Train.raw t)) ++ "_" ++
                  PyStr.py_str_int (Train.DOLocationID (Train.raw t)))
                 (Train.trip_distance (Train.raw t))) /\
     nth_error (snd (Train.prepare_features df)) n = Some (Train.duration t)).
Proof.
  rewrite prepare_features_rows. simpl snd.
  split; [apply length_map|split; [apply length_map|]].
  intros n t Hn. rewrite !nth_error_map, Hn. split; [|reflexivity].
  unfold Ride.feature_dict, ride_of_trip. cbn -[PyStr.fstring].
  now rewrite feature_key_fstring.
Qed.

(** Every row [simulate_requests] logs comes from one input row whose request
    succeeded: it carries the prediction the server returned, the row's own
    duration as ground truth, the request's distance and, as [PU_DO], the
    key the service's [predict] builds for that request; all its cells are
    present. *)
Theorem simulate_requests_rows (post : Http.RawRide -> option Q) (clock : nat -> Z)
    (i : nat) (df : list Train.Trip) (r : Log.LogRow) :
  In r (SimulateRequests.simulate_requests post clock i df) ->
  exists t pred,
    In t df /\ post (SimulateRequests.payload t) = Some pred /\
    Log.prediction r = Some pred /\ Log.duration r = Some (Train.duration t) /\
    Log.log_PU_DO r = Some (PU_DO (Ride.feature_dict (ride_of_trip t))) /\
    Log.log_trip_distance r = Some (Train.trip_distance (Train.raw t)) /\
    SimulateRequests.complete r = true.
Proof.
  revert i. induction df as [|t df IH]; simpl; [tauto|]. intros i Hin.
  destruct (post (SimulateRequests.payload t)) as [pred|] eqn:Hp.
  - destruct Hin as [<-|Hin].
    + exists t, pred. repeat split; auto.
    + destruct (IH (S i) Hin) as (t' & pred' & Ht & Hrest). exists t', pred'. auto.
  - destruct (IH (S i) Hin) as (t' & pred' & Ht & Hrest). exists t', pred'. auto.
Qed.

(** The logged row of [sample_trip] against a server answering 12. *)
Lemma simulate_requests_rows_witness :
  exists t pred, In t [sample_trip] /\ pred = 12%Q /\
    Log.log_PU_DO (SimulateRequests.log_row 7 sample_trip 12)
      = Some (PU_DO (Ride.feature_dict (ride_of_trip t))).
Proof.
  destruct (simulate_requests_rows (fun _ => Some 12%Q) (fun _ => 7%Z) 0 [sample_trip]
              (SimulateRequests.log_row 7 sample_trip 12) (or_introl eq_refl))
    as (t & pred & Ht & Hp & _ & _ & Hk & _).
  exists t, pred. split; [exact Ht|]. split; [congruence|]. exact Hk.
Defined.

(** [simulate_requests] logs, in order, one row per input row whose request
    succeeded and none for one whose request failed: row [k] of [df] (the
    [i + k]-th request) gives [log_row (clock (i + k)) t pred] when the
    server answered [pred], and nothing otherwise; so the log has as many
    rows as there were successful requests. *)
Theorem simulate_requests_closed_form (post : Http.RawRide -> option Q) (clock : nat -> Z)
    (i : nat) (df : list Train.Trip) :
  SimulateRequests.simulate_requests post clock i df
  = flat_map (fun kt : nat * Train.Trip =>
                match post (SimulateRequests.payload (snd kt)) with
                | Some pred => [SimulateRequests.log_row (clock (fst kt)) (snd kt) pred]
                | None => []
                end)
             (combine (seq i (length df)) df) /\
  length (SimulateRequests.simulate_requests post clock i df)
  = length (filter (fun t => match post (SimulateRequests.payload t) with
                             | Some _ => true
                             | None => false
                             end) df).
Proof.
  revert i. induction df as [|t df IH]; intros i; simpl; [split; reflexivity|].
  destruct (IH (S i)) as [Hf Hl].
  destruct (post (SimulateRequests.payload t)); simpl; rewrite Hf;
    split; try reflexivity; now rewrite <- Hf, Hl.
Qed.

(** The monitor keeps every row the simulator logs: [dropna] removes none
    of them. *)
Theorem simulated_rows_survive_dropna (post : Http.RawRide -> option Q) (clock : nat -> Z)
    (i : nat) (df : list Train.Trip) :
  Monitor.dropna (SimulateRequests.simulate_requests post clock i df)
  = SimulateRequests.simulate_requests post clock i df.
Proof.
  revert i. induction df as [|t df IH]; intros i; simpl; [reflexivity|].
  destruct (post (SimulateRequests.payload t)); simpl; now rewrite IH.
Qed.

(** Against a CI/CD service that started without a loadable model, a whole
    simulation logs nothing, so [main] leaves [data/predictions.csv] as it
    was (absent or not). *)
Theorem degraded_service_simulation_leaves_log (fs06 : App06.Files) (st : App06.State)
    (clock : nat -> Z) (df : list Train.Trip) (fs : Log.FS) :
  App06.models_model fs06 = None \/ App06.models_model fs06 = Some Http.Corrupt ->
  App06.lifespan fs06 = inl st ->
  SimulateRequests.simulate_requests
    (SimulateRequests.post_to (App06.handle st)) clock 0 df = [] /\
  Simulate.main (SimulateRequests.simulate_requests
    (SimulateRequests.post_to (App06.handle st)) clock 0 df) fs = fs.
Proof.
  intros Hfail Hst.
  assert (Hm : App06.model st = None).
  { pose proof (app06_lifespan_spec fs06) as Hspec. rewrite Hst in Hspec.
    destruct Hspec as [Hm _]. rewrite Hm. destruct Hfail as [H|H]; now rewrite H. }
  assert (Hnone : forall b, SimulateRequests.post_to (App06.handle st) b = None).
  { intros b. unfold SimulateRequests.post_to. rewrite (app06_no_model_predict st b Hm).
    now destruct (Http.validate b). }
  assert (Hnil : forall i, SimulateRequests.simulate_requests
            (SimulateRequests.post_to (App06.handle st)) clock i df = []).
  { induction df as [|t df IH]; intros i; simpl; [reflexivity|]. now rewrite Hnone. }
  rewrite Hnil. split; reflexivity.
Qed.

(** A degraded start ([models/model] and [run_id.txt] absent) and a one-row
    simulation. *)
Lemma degraded_service_simulation_leaves_log_witness :
  App06.lifespan (App06.mkFiles None None) = inl (App06.mkState None None) /\
  Simulate.main (SimulateRequests.simulate_requests
    (SimulateRequests.post_to (App06.handle (App06.mkState None None)))
    (fun _ => 0%Z) 0 [sample_trip]) (Log.mkFS true (Some [sample_row 1]))
  = Log.mkFS true (Some [sample_row 1]).
Proof.
  split; [reflexivity|].
  apply (proj2 (degraded_service_simulation_leaves_log (App06.mkFiles None None)
                  (App06.mkState None None)
                  (fun _ => 0%Z) [sample_trip] (Log.mkFS true (Some [sample_row 1]))
                  (or_introl eq_refl) eq_refl)).
Defined.

(** Simulator into monitor: when the log holds only complete rows and a
    simulation appends its rows, the monitor's reference and current
    windows together hold every row of the new log, [N / 2] of them in the
    reference window, [N] being the new log's length. *)
Theorem simulate_then_monitor (sort_values : list Log.LogRow -> list Log.LogRow)
    (post : Http.RawRide -> option Q) (clock : nat -> Z) (df : list Train.Trip)
    (P : list Log.LogRow) (dir : bool) :
  (forall l, Permutation (sort_values l) l) ->
  Monitor.dropna P = P ->
  let out := SimulateRequests.simulate_requests post clock 0 df in
  let log := Log.predictions_csv (Simulate.main out (Log.mkFS dir (Some P))) in
  exists reference current,
    Monitor.main sort_values log = Monitor.DriftReport reference current /\
    Permutation (reference ++ current) (P ++ out)%list /\
    length reference = Nat.div (length (P ++ out)%list) 2.
Proof.
  intros Hperm HP out log.
  assert (Hlog : log = Some (P ++ out)%list).
  { subst log. destruct out eqn:E; simpl; [now rewrite app_nil_r|reflexivity]. }
  assert (Hd : Monitor.dropna (P ++ out) = (P ++ out)%list).
  { unfold Monitor.dropna. rewrite filter_app. fold (Monitor.dropna P) (Monitor.dropna out).
    rewrite HP. subst out. now rewrite simulated_rows_survive_dropna. }
  rewrite Hlog. unfold Monitor.main. rewrite Hd.
  eexists; eexists; split; [reflexivity|].
  pose proof (Permutation_length (Hperm (P ++ out)%list)) as Hlen.
  rewrite firstn_skipn. split; [apply Hperm|].
  rewrite length_firstn, Hlen. apply Nat.min_l. apply Nat.Div0.div_le_upper_bound; lia.
Qed.

(** A complete log of two rows and a one-row simulation, with the merge
    sort. *)
Lemma simulate_then_monitor_witness :
  exists reference current,
    Monitor.main Monitor.TsSort.sort
      (Log.predictions_csv (Simulate.main
         (SimulateRequests.simulate_requests (fun _ => Some 12%Q) (fun _ => 40%Z) 0 [sample_trip])
         (Log.mkFS true (Some [sample_row 10; sample_row 20]))))
    = Monitor.DriftReport reference current /\
    length reference = 1%nat.
Proof.
  destruct (simulate_then_monitor Monitor.TsSort.sort (fun _ => Some 12%Q) (fun _ => 40%Z)
              [sample_trip] [sample_row 10; sample_row 20] true ts_sort_perm eq_refl)
    as (r & c & H & _ & Hl).
  exists r, c. split; [exact H|]. rewrite Hl. reflexivity.
Defined.
